(** * unique_error: a guard for error values that must be checked

    A shallow embedding of [include/unique_error.h] (namespace [gsl]) and
    the properties of its disposition state machine.

    Objects of type [unique_error<Error>] live in a store indexed by
    addresses, so that the two-object operations (move construction,
    assignments, comparisons) see aliasing the way the C++ code does.
    Member functions are written in a small state-and-failure monad, one
    statement of the source per monadic step. *)

From Stdlib Require Import ZArith.
From stdpp Require Import gmap strings.

Local Open Scope Z_scope.

(** ** [gsl::details::Disposition] *)

Module details.

Inductive Disposition : Type :=
| Invalid
| Initiated
| Defaulted
| Released
| Checked
| Unchecked
| End_.

(** [Begin = Initiated] is an alias, not a sixth state. *)
Definition Begin : Disposition := Initiated.

(** The enumerators' integer values. *)
Definition to_Z (d : Disposition) : Z :=
  match d with
  | Invalid => 0
  | Initiated => 1
  | Defaulted => 2
  | Released => 3
  | Checked => 4
  | Unchecked => 5
  | End_ => 6
  end.

#[export] Instance Disposition_eq_dec : EqDecision Disposition.
Proof. solve_decision. Defined.

(** [d1 != d2] on the enumeration. *)
Definition neb (d1 d2 : Disposition) : bool := negb (bool_decide (d1 = d2)).

End details.
Export details.

(** ** What the code asks of the wrapped type *)

(** [T{}]: value initialisation. *)
Class ValueInit (T : Type) := value_init : T.
(** Contextual conversion to [bool], as in [!e]. *)
Class BoolConv (T : Type) := to_bool : T -> bool.
(** [a == b] and [a < b], possibly between different types. *)
Class OperatorEq (A B : Type) := op_eq : A -> B -> bool.
Class OperatorLt (A B : Type) := op_lt : A -> B -> bool.

(** ** [error_traits<T>] *)

Module traits.
Class error_traits (T : Type) : Type :=
  { initiate : T;
    ok : T -> bool }.
End traits.
Abbreviation error_traits := traits.error_traits.

(** The primary template: [initiate() = T{}], [ok(e) = !!e]. *)
Definition error_traits_primary (T : Type) `{!ValueInit T, !BoolConv T}
  : error_traits T :=
  {| traits.initiate := value_init;
     traits.ok := fun e => negb (negb (to_bool e)) |}.

(** *** The standard status types

    [std::error_condition] and [std::error_code] are a pair of an [int]
    value and a category; they are default constructed with value 0 (in
    the generic, respectively the system category) and convert to [true]
    exactly when the value is not 0. *)

Inductive error_category : Type :=
| generic_category
| system_category
| user_category (id : nat).

#[global] Instance error_category_eq_dec : EqDecision error_category.
Proof. solve_decision. Defined.

Module std.

Record error_condition : Type :=
  { cond_value : Z; cond_category : error_category }.

Record error_code : Type :=
  { code_value : Z; code_category : error_category }.

#[export] Instance error_condition_init : ValueInit error_condition :=
  {| cond_value := 0; cond_category := generic_category |}.
#[export] Instance error_condition_bool : BoolConv error_condition :=
  fun e => negb (cond_value e =? 0).

#[export] Instance error_code_init : ValueInit error_code :=
  {| code_value := 0; code_category := system_category |}.
#[export] Instance error_code_bool : BoolConv error_code :=
  fun e => negb (code_value e =? 0).

(** [std::errc::invalid_argument] and [std::errc::not_enough_memory]
    (EINVAL and ENOMEM), as [make_error_condition] builds them. *)
Definition invalid_argument : error_condition :=
  {| cond_value := 22; cond_category := generic_category |}.
Definition not_enough_memory : error_condition :=
  {| cond_value := 12; cond_category := generic_category |}.

#[export] Instance error_condition_eq : OperatorEq error_condition error_condition :=
  fun a b => bool_decide (cond_category a = cond_category b)
             && (cond_value a =? cond_value b).

(** Categories are objects and are ordered by their addresses; where
    the library places them differs from one platform to the next, and
    is a parameter here. *)
Class CategoryLayout : Type := category_address : error_category -> Z.

#[export] Instance error_condition_lt `{!CategoryLayout}
  : OperatorLt error_condition error_condition :=
  fun a b => (category_address (cond_category a) <? category_address (cond_category b))
             || (bool_decide (cond_category a = cond_category b)
                 && (cond_value a <? cond_value b)).

(** One layout, for the examples that need some: the system category
    below the generic one, the others above. *)
Definition a_layout : CategoryLayout :=
  fun c =>
    match c with
    | system_category => 0
    | generic_category => 1
    | user_category id => 2 + Z.of_nat id
    end.

End std.
Export std.

(** [error_traits<std::error_condition>]. *)
#[global] Instance error_traits_error_condition : error_traits error_condition :=
  {| traits.initiate := value_init;
     traits.ok := fun ge => negb (to_bool ge) |}.

(** [error_traits<std::error_code>]. *)
#[global] Instance error_traits_error_code : error_traits error_code :=
  {| traits.initiate := value_init;
     traits.ok := fun se => negb (to_bool se) |}.

(** [bool] is not among the integral types disabled by the empty
    specialisations, so [error_traits<bool>] is the primary template. *)
#[global] Instance bool_init : ValueInit bool := false.
#[global] Instance bool_conv : BoolConv bool := fun b => b.

(** ** [unique_error<Error>] *)

Record unique_error (Error : Type) : Type :=
  { value : Error;
    disposition : Disposition }.
Arguments value {Error} _.
Arguments disposition {Error} _.

(** Addresses of [unique_error] objects. *)
Abbreviation loc := nat.

Section store.
Context {Error : Type}.

Local Abbreviation heap := (gmap loc (unique_error Error)).

(** The result of running a piece of code from a store: it returns, or a
    [fail_fast_assert] fires (the store is the one at that moment, which
    is what a handler sees when the failure is the catchable one), or
    the code touches an object that does not exist. *)
Inductive outcome (A : Type) : Type :=
| Returns (a : A) (h : heap)
| FailFast (msg : string) (h : heap)
| Undefined.
Global Arguments Returns {A} _ _.
Global Arguments FailFast {A} _ _.
Global Arguments Undefined {A}.

Definition M (A : Type) : Type := heap -> outcome A.

Definition ret {A} (a : A) : M A := fun h => Returns a h.

Definition bind {A B} (m : M A) (k : A -> M B) : M B :=
  fun h =>
    match m h with
    | Returns a h' => k a h'
    | FailFast msg h' => FailFast msg h'
    | Undefined => Undefined
    end.

(** Did the run end on the fatal path? *)
Definition failed {A} (o : outcome A) : bool :=
  match o with
  | FailFast _ _ => true
  | _ => false
  end.

(** Reads and writes of the two data members through an address. *)
Definition get_value (this : loc) : M Error :=
  fun h => match h !! this with
           | Some u => Returns (value u) h
           | None => Undefined
           end.

Definition get_disposition (this : loc) : M Disposition :=
  fun h => match h !! this with
           | Some u => Returns (disposition u) h
           | None => Undefined
           end.

Definition set_value (this : loc) (v : Error) : M unit :=
  fun h => match h !! this with
           | Some u =>
               Returns tt (<[this := {| value := v; disposition := disposition u |}]> h)
           | None => Undefined
           end.

Definition set_disposition (this : loc) (d : Disposition) : M unit :=
  fun h => match h !! this with
           | Some u =>
               Returns tt (<[this := {| value := value u; disposition := d |}]> h)
           | None => Undefined
           end.

(** A constructor's member initialisers, and the end of an object's
    storage after its destructor body. *)
Definition emplace (this : loc) (v : Error) (d : Disposition) : M unit :=
  fun h => Returns tt (<[this := {| value := v; disposition := d |}]> h).

Definition dispose (this : loc) : M unit :=
  fun h => match h !! this with
           | Some _ => Returns tt (delete this h)
           | None => Undefined
           end.

(** Modelled from the spec: [fail_fast_assert] of [fail_fast.h], which
    is not among the sources. When the condition is false the process
    terminates or, in the testing configuration, a catchable [fail_fast]
    failure is raised; otherwise nothing happens. *)
Definition fail_fast_assert (cond : bool) (msg : string) : M unit :=
  fun h => if cond then Returns tt h else FailFast msg h.

End store.
Arguments outcome : clear implicits.
Arguments M : clear implicits.

Declare Scope ue_scope.
Delimit Scope ue_scope with ue.
Notation "x <- m ;; k" := (bind m (fun x => k))
  (at level 100, m at next level, right associativity) : ue_scope.
Notation "m ;; k" := (bind m (fun _ => k))
  (at level 100, right associativity) : ue_scope.
Local Open Scope ue_scope.

Section members.
Context {Error : Type} `{!error_traits Error}.

Local Abbreviation heap := (gmap loc (unique_error Error)).

(** [this_type& reset(type raw)] *)
Definition reset_raw (this : loc) (raw : Error) : M Error loc :=
  d <- get_disposition this ;;
  fail_fast_assert (neb d Unchecked) "error was not checked"%string ;;
  set_value this raw ;;
  set_disposition this Unchecked ;;
  ret this.

(** [this_type& reset()] *)
Definition reset (this : loc) : M Error loc :=
  reset_raw this traits.initiate ;;
  set_disposition this Defaulted ;;
  ret this.

(** [type release()] *)
Definition release (this : loc) : M Error Error :=
  set_disposition this Released ;;
  result <- get_value this ;;
  reset this ;;
  ret result.

(** [type get() const] *)
Definition get (this : loc) : M Error Error :=
  get_value this.

(** [bool try_ok() const] *)
Definition try_ok (this : loc) : M Error bool :=
  v <- get_value this ;;
  ret (traits.ok v).

(** [bool ok() const]; [disposition] is a [mutable] member. *)
Definition ok (this : loc) : M Error bool :=
  set_disposition this Checked ;;
  try_ok this.

(** [explicit operator bool() const] *)
Definition operator_bool (this : loc) : M Error bool :=
  b <- ok this ;;
  ret (negb b).

(** [~unique_error()], after which the object is gone. *)
Definition dtor (this : loc) : M Error unit :=
  reset this ;;
  dispose this.

(** [unique_error()] *)
Definition ctor_default (this : loc) : M Error unit :=
  emplace this traits.initiate Defaulted.

(** [unique_error(const type& other)] and [unique_error(type&& other)] *)
Definition ctor_raw (this : loc) (other : Error) : M Error unit :=
  emplace this other Initiated.

(** [unique_error(unique_error&& other)] *)
Definition ctor_move (this other : loc) : M Error unit :=
  v <- release other ;;
  emplace this v Unchecked.

(** [unique_error(const unique_error& other)] *)
Definition ctor_copy (this other : loc) : M Error unit :=
  v <- get_value other ;;
  emplace this v Unchecked.

(** [void swap(unique_error& other)], with [std::swap] on each member. *)
Definition swap (this other : loc) : M Error unit :=
  tmp <- get_value this ;;
  v <- get_value other ;;
  set_value this v ;;
  set_value other tmp ;;
  tmpd <- get_disposition this ;;
  d <- get_disposition other ;;
  set_disposition this d ;;
  set_disposition other tmpd.

(** [unique_error& operator=(unique_error&& other)] *)
Definition operator_assign_move (this other : loc) : M Error loc :=
  v <- release other ;;
  set_value this v ;;
  set_disposition this Unchecked ;;
  ret this.

(** [unique_error& operator=(const unique_error& other)] *)
Definition operator_assign_copy (this other : loc) : M Error loc :=
  v <- get_value other ;;
  set_value this v ;;
  set_disposition this Unchecked ;;
  ret this.

End members.

(** Storage for a new object, be it a local, a temporary or a returned
    value: an address at which no object lives. *)
Definition new_storage {Error : Type} : M Error loc :=
  fun h => Returns (fresh (dom h)) h.

(** ** The free comparison operators *)

Section compare.
Context {Error : Type} `{!OperatorEq Error Error, !OperatorLt Error Error}.





End compare.

(** ** Which function a comparison binds to

    The class declares five comparison operators as friends (lines 257
    to 265). Such a declaration names a function that is not a template,
    and neither the header nor the tests define any of the five. The
    nine operators defined after the class (lines 278 to 330) are
    templates, hence other functions than the friends. Among the
    functions whose parameters match the operands of an expression
    exactly, one that is not a template is chosen before a template
    specialisation; an expression bound to a function without a
    definition leaves the program without a value for it: it does not
    link. *)

Module linkage.

(** [const unique_error<Error>&] and [const Error&]. *)
Inductive operand : Type := guarded | bare.

(** [<], [==] and [!=]. *)
Inductive symbol : Type := sym_lt | sym_eq | sym_ne.

#[export] Instance operand_eq_dec : EqDecision operand.
Proof. solve_decision. Defined.
#[export] Instance symbol_eq_dec : EqDecision symbol.
Proof. solve_decision. Defined.

(** What a body returns: the comparison [lhs.value s rhs.value], with
    [.value] applied to both parameters whatever their types, or an
    operator expression on the two parameters, in their order or
    swapped, negated or not. *)
Inductive body : Type :=
| compare_members (s : symbol)
| forward (negated : bool) (s : symbol) (swapped : bool).

Record declaration : Type :=
  { line : nat;
    sym : symbol;
    lhs : operand;
    rhs : operand;
    is_template : bool;
    definition : option body }.

Definition friend (line : nat) (s : symbol) (l r : operand) : declaration :=
  {| line := line; sym := s; lhs := l; rhs := r;
     is_template := false; definition := None |}.

Definition template (line : nat) (s : symbol) (l r : operand) (b : body)
  : declaration :=
  {| line := line; sym := s; lhs := l; rhs := r;
     is_template := true; definition := Some b |}.

(** The friend declarations of the class. *)
Definition friends : list declaration :=
  [ friend 257 sym_lt guarded guarded;
    friend 259 sym_eq guarded guarded;
    friend 261 sym_lt guarded bare;
    friend 263 sym_eq guarded bare;
    friend 265 sym_lt bare guarded ].

(** The operator templates after the class:
    [lhs.value < rhs.value], [lhs.value == rhs.value], [!(lhs == rhs)],
    three times over, the last two of the last group being
    [rhs == lhs] and [!(rhs == lhs)]. *)
Definition templates : list declaration :=
  [ template 279 sym_lt guarded guarded (compare_members sym_lt);
    template 285 sym_eq guarded guarded (compare_members sym_eq);
    template 291 sym_ne guarded guarded (forward true sym_eq false);
    template 297 sym_lt guarded bare (compare_members sym_lt);
    template 303 sym_eq guarded bare (compare_members sym_eq);
    template 309 sym_ne guarded bare (forward true sym_eq false);
    template 315 sym_lt bare guarded (compare_members sym_lt);
    template 321 sym_eq bare guarded (forward false sym_eq true);
    template 327 sym_ne bare guarded (forward true sym_eq true) ].

(** The declarations whose symbol and parameters are those of the
    expression [l s r]. *)
Definition matching (s : symbol) (l r : operand) (ds : list declaration)
  : list declaration :=
  List.filter
    (fun d => bool_decide (sym d = s) && bool_decide (lhs d = l)
              && bool_decide (rhs d = r))
    ds.

(** The function the expression [l s r] binds to. *)
Definition resolve (s : symbol) (l r : operand) : option declaration :=
  head (matching s l r friends ++ matching s l r templates).

(** Does the expression [l s r] link: is the function it binds to
    defined and, when its body is an operator expression again, does
    that one link? [None] when the depth given does not reach the end or
    when no function matches. *)
Fixpoint links (depth : nat) (s : symbol) (l r : operand) : option bool :=
  match depth with
  | O => None
  | S depth =>
      match resolve s l r with
      | None => None
      | Some d =>
          match definition d with
          | None => Some false
          | Some (compare_members _) => Some true
          | Some (forward _ s' swapped) =>
              if swapped then links depth s' r l else links depth s' l r
          end
      end
  end.

(** The bodies that apply [.value] to a parameter of type
    [const Error&], the bare error itself. *)
Definition reads_value_of_bare (d : declaration) : bool :=
  match definition d with
  | Some (compare_members _) =>
      bool_decide (lhs d = bare) || bool_decide (rhs d = bare)
  | _ => false
  end.

End linkage.

(** ** Stores used in the examples *)

Definition ge : loc := 0%nat.
Definition ge2 : loc := 1%nat.

(** One [unique_error_condition] just built from an error value. *)
Definition store_initiated : gmap loc (unique_error error_condition) :=
  {[ ge := {| value := invalid_argument; disposition := Initiated |} ]}.

(** One [unique_error_condition] holding an error nobody looked at. *)
Definition store_unchecked : gmap loc (unique_error error_condition) :=
  {[ ge := {| value := invalid_argument; disposition := Unchecked |} ]}.

(** Two of them: an unchecked one and a checked one. *)
Definition store_pair : gmap loc (unique_error error_condition) :=
  <[ ge2 := {| value := not_enough_memory; disposition := Checked |} ]>
    store_unchecked.

(** ** The repository's tests, as programs of the model

    [CHECK_THROW(e, fail_fast)] runs [e] in the testing configuration,
    where the failure is caught: the check passes when [e] failed, and
    the test goes on from the store the failure left. Each test returns
    the conjunction of its checks, after the destructor of [ge] at the
    end of the scope. *)

Section tests.

Local Abbreviation Err := error_condition.

Definition CHECK_THROW {A} (m : M Err A) : M Err bool :=
  fun h =>
    match m h with
    | Returns _ h' => Returns false h'
    | FailFast _ h' => Returns true h'
    | Undefined => Undefined
    end.

Definition okApiCall : Err := value_init.
Definition failApiCall : Err := invalid_argument.

(** [okcall()] and [failcall()] build their result in the caller's
    temporary. *)
Definition okcall (result : loc) : M Err unit := ctor_default result.
Definition failcall (result : loc) : M Err unit := ctor_raw result invalid_argument.

(** [this = call();]: the temporary is built in storage of its own,
    moved from and destroyed at the end of the statement. *)
Definition assign_call (this : loc) (call : loc -> M Err unit) : M Err unit :=
  tmp <- new_storage ;;
  call tmp ;;
  operator_assign_move this tmp ;;
  dtor tmp.

Definition error_ge_basic_test : M Err bool :=
  ctor_default ge ;;
  c <- try_ok ge ;;
  dtor ge ;;
  ret c.

Definition error_ge_missing_ok_test : M Err bool :=
  ctor_default ge ;;
  reset_raw ge okApiCall ;;
  t <- CHECK_THROW (reset_raw ge okApiCall) ;;
  release ge ;;
  dtor ge ;;
  ret t.

Definition error_ge_missing_fail_test : M Err bool :=
  ctor_raw ge invalid_argument ;;
  c1 <- try_ok ge ;;
  reset_raw ge failApiCall ;;
  c2 <- try_ok ge ;;
  t <- CHECK_THROW (reset_raw ge failApiCall) ;;
  release ge ;;
  dtor ge ;;
  ret (negb c1 && negb c2 && t).

Definition error_ge_long_test : M Err bool :=
  ctor_default ge ;;
  c1 <- try_ok ge ;;
  reset_raw ge okApiCall ;;
  c2 <- try_ok ge ;;
  t1 <- CHECK_THROW (reset_raw ge okApiCall) ;;
  operator_bool ge ;;
  assign_call ge okcall ;;
  c3 <- try_ok ge ;;
  v1 <- get ge ;;
  t2 <- CHECK_THROW (reset_raw ge okApiCall) ;;
  release ge ;;
  assign_call ge failcall ;;
  c4 <- try_ok ge ;;
  v2 <- get ge ;;
  t3 <- CHECK_THROW (reset_raw ge failApiCall) ;;
  release ge ;;
  reset ge ;;
  c5 <- try_ok ge ;;
  assign_call ge (fun tmp => ctor_raw tmp not_enough_memory) ;;
  c6 <- try_ok ge ;;
  t4 <- CHECK_THROW (reset_raw ge failApiCall) ;;
  ok ge ;;
  dtor ge ;;
  ret (c1 && c2 && t1 && c3 && op_eq v1 (value_init : Err) && t2
       && negb c4 && op_eq v2 invalid_argument && t3
       && c5 && negb c6 && t4).

End tests.

(** ** The rest of the interface *)

Section more_members.
Context {Error : Type} `{!error_traits Error}.

(** The free [swap(unique_error<Error>& lhs, unique_error<Error>& rhs)]. *)
Definition swap_free (lhs rhs : loc) : M Error unit :=
  swap lhs rhs.

(** One call of a constructor, of the destructor or of a member
    function, the way client code issues them. *)
Inductive call : Type :=
| call_ctor_default (this : loc)
| call_ctor_raw (this : loc) (other : Error)
| call_ctor_move (this other : loc)
| call_ctor_copy (this other : loc)
| call_dtor (this : loc)
| call_swap (this other : loc)
| call_assign_move (this other : loc)
| call_assign_copy (this other : loc)
| call_operator_bool (this : loc)
| call_reset (this : loc)
| call_reset_raw (this : loc) (raw : Error)
| call_release (this : loc)
| call_get (this : loc)
| call_try_ok (this : loc)
| call_ok (this : loc).

(** A call whose result is not used. *)
Definition void {A} (m : M Error A) : M Error unit :=
  m ;; ret tt.

Definition run (c : call) : M Error unit :=
  match c with
  | call_ctor_default this => ctor_default this
  | call_ctor_raw this other => ctor_raw this other
  | call_ctor_move this other => ctor_move this other
  | call_ctor_copy this other => ctor_copy this other
  | call_dtor this => dtor this
  | call_swap this other => swap this other
  | call_assign_move this other => void (operator_assign_move this other)
  | call_assign_copy this other => void (operator_assign_copy this other)
  | call_operator_bool this => void (operator_bool this)
  | call_reset this => void (reset this)
  | call_reset_raw this raw => void (reset_raw this raw)
  | call_release this => void (release this)
  | call_get this => void (get this)
  | call_try_ok this => void (try_ok this)
  | call_ok this => void (ok this)
  end.

(** The object a call overwrites behind [fail_fast_assert], if any:
    the receiver of [reset()], of [reset(raw)] and of the destructor. *)
Definition guarded (c : call) : option loc :=
  match c with
  | call_dtor this | call_reset this | call_reset_raw this _ => Some this
  | _ => None
  end.

(** The objects a call names. *)
Definition footprint (c : call) : list loc :=
  match c with
  | call_ctor_move this other | call_ctor_copy this other
  | call_swap this other | call_assign_move this other
  | call_assign_copy this other => [this; other]
  | call_ctor_default this | call_ctor_raw this _ | call_dtor this
  | call_operator_bool this | call_reset this | call_reset_raw this _
  | call_release this | call_get this | call_try_ok this | call_ok this => [this]
  end.

(** The objects whose checking obligation a call can end: the receiver
    of [ok()], of the conversion to [bool] and of [release()], the source
    of a move, both sides of a swap, and the storage a constructor
    initialises otherwise than as a copy of another guarded value. *)
Definition discharging (c : call) : list loc :=
  match c with
  | call_ok this | call_operator_bool this | call_release this => [this]
  | call_assign_move _ other => [other]
  | call_ctor_move this other => [this; other]
  | call_swap this other => [this; other]
  | call_ctor_default this | call_ctor_raw this _ => [this]
  | call_ctor_copy _ _ | call_assign_copy _ _ | call_dtor _
  | call_reset _ | call_reset_raw _ _ | call_get _ | call_try_ok _ => []
  end.

(** The dispositions a constructor or a completed member function
    leaves: [Released] is only ever written in the middle of
    [release()], [Invalid] and [End] never. *)
Definition settled (d : Disposition) : bool :=
  match d with
  | Initiated | Defaulted | Checked | Unchecked => true
  | Invalid | Released | End_ => false
  end.

End more_members.
Arguments call : clear implicits.

(** ** [Create1] of the tests and what it calls

    A [std::unique_ptr<T>] is null or owns a [T]. [make_unique_nothrow]
    returns what [new(std::nothrow)] gave it, null when the allocation
    failed: the two allocations' results are parameters of [Create1]. *)

Section Create1.

Local Abbreviation Err := error_condition.

Definition unique_ptr (T : Type) : Type := option T.

Inductive Foo : Type := a_foo.
Inductive Bar : Type := a_bar.

(** [check_unique_ptr(p)], building its result at [result]. *)
Definition check_unique_ptr {T} (p : unique_ptr T) (result : loc) : M Err unit :=
  match p with
  | None => ctor_raw result not_enough_memory
  | Some _ => ctor_default result
  end.

(** [Create1()]: the local [ge] gets storage of its own, as do the
    temporaries of the two assignments and the returned tuple, whose
    first component the [result] lambda builds by moving [ge] into it;
    [ge] is destroyed when the function returns. The function's value is
    the address of the returned guard with the two pointers. *)
Definition Create1 (new_foo : unique_ptr Foo) (new_bar : unique_ptr Bar)
  : M Err (loc * unique_ptr Foo * unique_ptr Bar) :=
  local_ge <- new_storage ;;
  ctor_default local_ge ;;
  let result := fun (foo : unique_ptr Foo) (bar : unique_ptr Bar) =>
    (res <- new_storage ;;
     ctor_move res local_ge ;;
     dtor local_ge ;;
     ret (res, foo, bar)) in
  let foo := new_foo in
  assign_call local_ge (check_unique_ptr foo) ;;
  is_error <- operator_bool local_ge ;;
  if is_error then result foo None else
  let bar := new_bar in
  assign_call local_ge (check_unique_ptr bar) ;;
  is_error <- operator_bool local_ge ;;
  if is_error then result foo bar else
  result foo bar.

(** [TEST(create1_test)]: the value is the conjunction of its [CHECK]s,
    after the tuple is destroyed. *)
Definition create1_test (new_foo : unique_ptr Foo) (new_bar : unique_ptr Bar)
  : M Err bool :=
  r <- Create1 new_foo new_bar ;;
  let '(res, foo, bar) := r in
  c <- try_ok res ;;
  is_error <- operator_bool res ;;
  dtor res ;;
  ret (c && (if negb is_error
             then bool_decide (is_Some foo) && bool_decide (is_Some bar)
             else true)).

End Create1.

(** * Properties *)

(** ** Stepping through the monad *)

Section steps.
Context {Error : Type} `{!error_traits Error}.

Local Abbreviation heap := (gmap loc (unique_error Error)).

Implicit Types (h : heap) (g : loc) (u : unique_error Error).
Implicit Types (raw : Error) (d : Disposition).

Lemma bind_returns {A B} (m : M Error A) (k : A -> M Error B) h a h' :
  m h = Returns a h' -> bind m k h = k a h'.
Proof. unfold bind. intros ->. reflexivity. Qed.

Lemma bind_fail_fast {A B} (m : M Error A) (k : A -> M Error B) h msg h' :
  m h = FailFast msg h' -> bind m k h = FailFast msg h'.
Proof. unfold bind. intros ->. reflexivity. Qed.

Lemma get_value_at h g u :
  h !! g = Some u -> get_value g h = Returns (value u) h.
Proof. unfold get_value. intros ->. reflexivity. Qed.

Lemma get_disposition_at h g u :
  h !! g = Some u -> get_disposition g h = Returns (disposition u) h.
Proof. unfold get_disposition. intros ->. reflexivity. Qed.

Lemma set_value_at h g u raw :
  h !! g = Some u ->
  set_value g raw h
  = Returns tt (<[g := {| value := raw; disposition := disposition u |}]> h).
Proof. unfold set_value. intros ->. reflexivity. Qed.

Lemma set_disposition_at h g u d :
  h !! g = Some u ->
  set_disposition g d h
  = Returns tt (<[g := {| value := value u; disposition := d |}]> h).
Proof. unfold set_disposition. intros ->. reflexivity. Qed.

Lemma neb_Unchecked d : neb d Unchecked = false <-> d = Unchecked.
Proof. unfold neb. rewrite negb_false_iff. apply bool_decide_eq_true. Qed.

Lemma neb_not_Unchecked d : neb d Unchecked = true <-> d <> Unchecked.
Proof. unfold neb. rewrite negb_true_iff. apply bool_decide_eq_false. Qed.

(** [reset(raw)] in one step: the assertion, then the two writes. *)
Lemma reset_raw_run h g u raw :
  h !! g = Some u ->
  reset_raw g raw h
  = if neb (disposition u) Unchecked
    then Returns g (<[g := {| value := raw; disposition := Unchecked |}]> h)
    else FailFast "error was not checked" h.
Proof.
  intros Hg. unfold reset_raw.
  rewrite (bind_returns _ _ _ _ _ (get_disposition_at _ _ _ Hg)).
  unfold bind at 1, fail_fast_assert.
  destruct (neb (disposition u) Unchecked); [|reflexivity].
  rewrite (bind_returns _ _ _ _ _ (set_value_at _ _ _ raw Hg)).
  erewrite bind_returns
    by (apply set_disposition_at, lookup_insert_eq).
  cbn. unfold ret. by rewrite insert_insert_eq.
Qed.

(** [reset()] in one step. *)
Lemma reset_run h g u :
  h !! g = Some u ->
  reset g h
  = if neb (disposition u) Unchecked
    then Returns g (<[g := {| value := traits.initiate; disposition := Defaulted |}]> h)
    else FailFast "error was not checked" h.
Proof.
  intros Hg. unfold reset. unfold bind at 1.
  rewrite (reset_raw_run _ _ _ _ Hg).
  destruct (neb (disposition u) Unchecked); [|reflexivity].
  erewrite bind_returns
    by (apply set_disposition_at, lookup_insert_eq).
  cbn. unfold ret. by rewrite insert_insert_eq.
Qed.

(** [release()] in one step: whatever the disposition was. *)
Lemma release_run h g u :
  h !! g = Some u ->
  release g h
  = Returns (value u)
      (<[g := {| value := traits.initiate; disposition := Defaulted |}]> h).
Proof.
  intros Hg. unfold release.
  rewrite (bind_returns _ _ _ _ _ (set_disposition_at _ _ _ Released Hg)).
  erewrite bind_returns by (apply get_value_at, lookup_insert_eq).
  erewrite bind_returns by (erewrite reset_run by apply lookup_insert_eq; reflexivity).
  cbn. unfold ret. by rewrite insert_insert_eq.
Qed.

(** [ok()] in one step. *)
Lemma ok_run h g u :
  h !! g = Some u ->
  ok g h
  = Returns (traits.ok (value u))
      (<[g := {| value := value u; disposition := Checked |}]> h).
Proof.
  intros Hg. unfold ok, try_ok.
  rewrite (bind_returns _ _ _ _ _ (set_disposition_at _ _ _ Checked Hg)).
  erewrite bind_returns by (apply get_value_at, lookup_insert_eq).
  reflexivity.
Qed.

(** The destructor in one step. *)
Lemma dtor_run h g u :
  h !! g = Some u ->
  dtor g h
  = if neb (disposition u) Unchecked
    then Returns tt (delete g h)
    else FailFast "error was not checked" h.
Proof.
  intros Hg. unfold dtor, bind. rewrite (reset_run _ _ _ Hg).
  destruct (neb (disposition u) Unchecked); [|reflexivity].
  unfold dispose. rewrite lookup_insert_eq. by rewrite delete_insert_eq.
Qed.

End steps.

(** ** The overwrite guard: [reset], the destructor, [release], [ok] *)

Section guard.
Context {Error : Type} `{!error_traits Error}.

Local Abbreviation heap := (gmap loc (unique_error Error)).

Implicit Types (h : heap) (g : loc) (u : unique_error Error).
Implicit Types (raw : Error) (d : Disposition).

(** C1: [g.reset(raw)] takes the fatal path exactly when [g] is
    [Unchecked]; otherwise it stores [raw], marks [g] [Unchecked] and
    returns [g]. [g.reset()] has the same guard and otherwise stores the
    traits' success value and marks [g] [Defaulted]. *)
Theorem reset_guard h g u raw :
  h !! g = Some u ->
  (failed (reset_raw g raw h) = true <-> disposition u = Unchecked)
  /\ (disposition u <> Unchecked ->
      reset_raw g raw h
      = Returns g (<[g := {| value := raw; disposition := Unchecked |}]> h))
  /\ (failed (reset g h) = true <-> disposition u = Unchecked)
  /\ (disposition u <> Unchecked ->
      reset g h
      = Returns g
          (<[g := {| value := traits.initiate; disposition := Defaulted |}]> h)).
Proof.
  intros Hg.
  rewrite (reset_raw_run _ _ _ raw Hg), (reset_run _ _ _ Hg).
  destruct (neb (disposition u) Unchecked) eqn:Hd.
  - apply neb_not_Unchecked in Hd. cbn. intuition congruence.
  - apply neb_Unchecked in Hd. cbn. intuition congruence.
Qed.

(** After a successful [reset(raw)] a second [reset] of either form
    fails, whatever the values. *)
Lemma reset_twice_fails h g u raw raw' :
  h !! g = Some u ->
  disposition u <> Unchecked ->
  failed ((reset_raw g raw ;; reset_raw g raw') h) = true
  /\ failed ((reset_raw g raw ;; reset g) h) = true.
Proof.
  intros Hg Hd. apply neb_not_Unchecked in Hd. unfold bind.
  rewrite (reset_raw_run _ _ _ raw Hg), Hd.
  erewrite reset_raw_run, reset_run by apply lookup_insert_eq.
  split; reflexivity.
Qed.

(** [ok()] or [release()] in between makes the second [reset] pass. *)
Lemma reset_after_check h g u raw raw' :
  h !! g = Some u ->
  disposition u <> Unchecked ->
  failed ((reset_raw g raw ;; ok g ;; reset_raw g raw') h) = false
  /\ failed ((reset_raw g raw ;; release g ;; reset_raw g raw') h) = false.
Proof.
  intros Hg Hd. apply neb_not_Unchecked in Hd. unfold bind.
  rewrite (reset_raw_run _ _ _ raw Hg), Hd.
  erewrite ok_run, release_run by apply lookup_insert_eq.
  erewrite !reset_raw_run by apply lookup_insert_eq.
  split; reflexivity.
Qed.

(** C2: destroying [g] runs [reset()]: it takes the fatal path exactly
    when [reset()] does, that is exactly when [g] is [Unchecked]; from
    [Initiated], [Defaulted], [Released] and [Checked] the object just
    goes away. *)
Theorem dtor_is_reset h g u :
  h !! g = Some u ->
  failed (dtor g h) = failed (reset g h)
  /\ (failed (dtor g h) = true <-> disposition u = Unchecked)
  /\ (disposition u <> Unchecked -> dtor g h = Returns tt (delete g h))
  /\ (disposition u = Initiated \/ disposition u = Defaulted
      \/ disposition u = Released \/ disposition u = Checked ->
      failed (dtor g h) = false).
Proof.
  intros Hg.
  rewrite (dtor_run _ _ _ Hg), (reset_run _ _ _ Hg).
  destruct (neb (disposition u) Unchecked) eqn:Hd.
  - apply neb_not_Unchecked in Hd. cbn. intuition congruence.
  - apply neb_Unchecked in Hd. cbn. rewrite Hd. intuition congruence.
Qed.

(** C3: [g.release()] never takes the fatal path; it returns the value
    [g] held, and leaves [g] with the traits' success value and
    [Defaulted], from where destroying or resetting [g] is fine. *)
Theorem release_always h g u raw :
  h !! g = Some u ->
  let h' := <[g := {| value := traits.initiate; disposition := Defaulted |}]> h in
  release g h = Returns (value u) h'
  /\ dtor g h' = Returns tt (delete g h)
  /\ failed (reset g h') = false
  /\ failed (reset_raw g raw h') = false.
Proof.
  intros Hg h'. subst h'. rewrite (release_run _ _ _ Hg).
  erewrite dtor_run, reset_run, reset_raw_run by apply lookup_insert_eq.
  cbn. by rewrite delete_insert_eq.
Qed.

(** C4: [g.ok()] marks [g] [Checked], returns [traits::ok] of the value
    and leaves the value alone; the conversion to [bool] returns the
    negation and marks [g] the same way, so that destroying [g] right
    after the test is fine. *)
Theorem ok_marks_checked h g u :
  h !! g = Some u ->
  let h' := <[g := {| value := value u; disposition := Checked |}]> h in
  ok g h = Returns (traits.ok (value u)) h'
  /\ operator_bool g h = Returns (negb (traits.ok (value u))) h'
  /\ (operator_bool g ;; dtor g) h = Returns tt (delete g h).
Proof.
  intros Hg h'. subst h'. unfold operator_bool, bind.
  rewrite (ok_run _ _ _ Hg). cbv beta iota. unfold ret.
  erewrite dtor_run by apply lookup_insert_eq.
  cbn. by rewrite delete_insert_eq.
Qed.

(** C10: a [reset] refused on an [Unchecked] object raises its failure
    before any write: the store at the failure is the store of the
    call, so value and disposition are what they were. *)
Theorem refused_reset_keeps_state h g u raw :
  h !! g = Some u ->
  disposition u = Unchecked ->
  reset_raw g raw h = FailFast "error was not checked" h
  /\ reset g h = FailFast "error was not checked" h.
Proof.
  intros Hg Hd. apply neb_Unchecked in Hd.
  by rewrite (reset_raw_run _ _ _ raw Hg), (reset_run _ _ _ Hg), Hd.
Qed.

End guard.

(** ** Construction and assignment from another guarded value *)

Section transfer.
Context {Error : Type} `{!error_traits Error}.

Local Abbreviation heap := (gmap loc (unique_error Error)).

Implicit Types (h : heap) (a b g o : loc) (u : unique_error Error).

(** Writing both members of a live object. *)
Lemma overwrite_run h g (v : Error) (d : Disposition) :
  is_Some (h !! g) ->
  (set_value g v ;; set_disposition g d ;; ret g) h
  = Returns g (<[g := {| value := v; disposition := d |}]> h).
Proof.
  intros [u Hg].
  rewrite (bind_returns _ _ _ _ _ (set_value_at _ _ _ v Hg)).
  erewrite bind_returns by (apply set_disposition_at, lookup_insert_eq).
  cbn. unfold ret. by rewrite insert_insert_eq.
Qed.

(** Move construction in one step. *)
Lemma ctor_move_run h a b u :
  h !! a = Some u ->
  ctor_move b a h
  = Returns tt
      (<[b := {| value := value u; disposition := Unchecked |}]>
         (<[a := {| value := traits.initiate; disposition := Defaulted |}]> h)).
Proof.
  intros Ha. unfold ctor_move.
  by rewrite (bind_returns _ _ _ _ _ (release_run _ _ _ Ha)).
Qed.

(** Move assignment in one step; source and destination may be the
    same object. *)
Lemma operator_assign_move_run h a b u :
  h !! a = Some u ->
  is_Some (h !! b) ->
  operator_assign_move b a h
  = Returns b
      (<[b := {| value := value u; disposition := Unchecked |}]>
         (<[a := {| value := traits.initiate; disposition := Defaulted |}]> h)).
Proof.
  intros Ha Hb. unfold operator_assign_move.
  rewrite (bind_returns _ _ _ _ _ (release_run _ _ _ Ha)).
  apply overwrite_run.
  rewrite lookup_insert. case_decide; [by eexists | done].
Qed.

(** Copy assignment in one step. *)
Lemma operator_assign_copy_run h a b u :
  h !! a = Some u ->
  is_Some (h !! b) ->
  operator_assign_copy b a h
  = Returns b (<[b := {| value := value u; disposition := Unchecked |}]> h).
Proof.
  intros Ha Hb. unfold operator_assign_copy.
  rewrite (bind_returns _ _ _ _ _ (get_value_at _ _ _ Ha)).
  by apply overwrite_run.
Qed.

(** Assigning an object to itself by move keeps its value and leaves it
    [Unchecked]: there is no other object left to be cleared. *)
Lemma self_move_assign h g u :
  h !! g = Some u ->
  operator_assign_move g g h
  = Returns g (<[g := {| value := value u; disposition := Unchecked |}]> h).
Proof.
  intros Hg. rewrite (operator_assign_move_run _ _ _ _ Hg) by by eexists.
  by rewrite insert_insert_eq.
Qed.

(** C5: moving [a] into another object [b], by construction or by
    assignment, never takes the fatal path whatever [a]'s disposition;
    [b] ends with [a]'s value and [Unchecked], [a] with the traits'
    success value and [Defaulted], and [a] can be destroyed. *)
Theorem move_transfers_ownership h a b u :
  h !! a = Some u ->
  a <> b ->
  let h' :=
    <[b := {| value := value u; disposition := Unchecked |}]>
      (<[a := {| value := traits.initiate; disposition := Defaulted |}]> h) in
  ctor_move b a h = Returns tt h'
  /\ (is_Some (h !! b) -> operator_assign_move b a h = Returns b h')
  /\ h' !! b = Some {| value := value u; disposition := Unchecked |}
  /\ h' !! a = Some {| value := traits.initiate; disposition := Defaulted |}
  /\ failed (dtor a h') = false.
Proof.
  intros Ha Hab h'.
  assert (Hb' : h' !! b = Some {| value := value u; disposition := Unchecked |})
    by apply lookup_insert_eq.
  assert (Ha' : h' !! a
                = Some {| value := traits.initiate; disposition := Defaulted |}).
  { subst h'. rewrite lookup_insert_ne by congruence. apply lookup_insert_eq. }
  repeat split; try done.
  - by apply ctor_move_run.
  - by apply operator_assign_move_run.
  - by rewrite (dtor_run _ _ _ Ha').
Qed.

(** C6: assigning to an [Unchecked] object, by copy or by move, does not
    take the fatal path, although [reset] on the same object would: the
    old value is dropped without the assertion, and the object holds the
    source's value, [Unchecked]. *)
Theorem assignment_skips_guard h g o ug uo :
  h !! g = Some ug ->
  disposition ug = Unchecked ->
  h !! o = Some uo ->
  operator_assign_copy g o h
  = Returns g (<[g := {| value := value uo; disposition := Unchecked |}]> h)
  /\ (exists h',
         operator_assign_move g o h = Returns g h'
         /\ h' !! g = Some {| value := value uo; disposition := Unchecked |})
  /\ failed (reset g h) = true
  /\ failed (reset_raw g (value uo) h) = true.
Proof.
  intros Hg Hd Ho. apply neb_Unchecked in Hd.
  rewrite (reset_run _ _ _ Hg), (reset_raw_run _ _ _ (value uo) Hg), Hd.
  repeat split.
  - apply operator_assign_copy_run; [done | by eexists].
  - eexists. split.
    + apply operator_assign_move_run; [done | by eexists].
    + apply lookup_insert_eq.
Qed.

End transfer.

(** ** Comparisons *)

Section compare_props.
Context {Error : Type} `{!error_traits Error}.
Context `{!OperatorEq Error Error, !OperatorLt Error Error}.

Local Abbreviation heap := (gmap loc (unique_error Error)).

Implicit Types (h : heap) (a b : loc) (u : unique_error Error).







End compare_props.

(** No layout of the categories matters to a comparison within one
    category. *)
Lemma error_condition_lt_same_category (L1 L2 : CategoryLayout)
    (a b : error_condition) :
  cond_category a = cond_category b ->
  @op_lt _ _ (@error_condition_lt L1) a b = @op_lt _ _ (@error_condition_lt L2) a b.
Proof.
  intros Hc. unfold op_lt, error_condition_lt. rewrite Hc.
  by rewrite !Z.ltb_irrefl.
Qed.

(** ** The comparisons with a bare error *)

(** C9: none of the six comparisons of a guarded value with a bare
    error has a value. [g == r], [g < r] and [r < g] bind to the friends
    declared at lines 263, 261 and 265, which are not defined; [g != r],
    [r == g] and [r != g] bind to templates whose bodies are [g == r]
    again. The templates that these friends hide apply [.value] to the
    bare error as well as to the guarded value. *)
Theorem mixed_comparisons_do_not_link :
  (forall n s,
      linkage.links (2 + n) s linkage.guarded linkage.bare = Some false
      /\ linkage.links (2 + n) s linkage.bare linkage.guarded = Some false)
  /\ linkage.line <$> linkage.resolve linkage.sym_eq linkage.guarded linkage.bare
     = Some 263%nat
  /\ linkage.line <$> linkage.resolve linkage.sym_lt linkage.guarded linkage.bare
     = Some 261%nat
  /\ linkage.line <$> linkage.resolve linkage.sym_lt linkage.bare linkage.guarded
     = Some 265%nat
  /\ linkage.line <$> List.filter linkage.reads_value_of_bare linkage.templates
     = [297; 303; 315]%nat.
Proof.
  split; [|repeat split].
  intros n s. destruct s; split; reflexivity.
Qed.

(** ** [ok(initiate())] *)

Lemma error_condition_initiate_ok :
  traits.ok (traits.initiate : error_condition) = true.
Proof. reflexivity. Qed.

Lemma error_code_initiate_ok :
  traits.ok (traits.initiate : error_code) = true.
Proof. reflexivity. Qed.

(** The primary template accepts its initial value exactly when [T{}]
    converts to [true]. *)
Lemma primary_initiate_ok (T : Type) `{!ValueInit T, !BoolConv T} :
  @traits.ok T (error_traits_primary T) (@traits.initiate T (error_traits_primary T))
  = to_bool (value_init : T).
Proof. cbn. apply negb_involutive. Qed.

(** A default-constructed guarded value answers [try_ok()] with
    [ok(initiate())]. *)
Lemma default_try_ok {Error : Type} `{!error_traits Error}
    (h : gmap loc (unique_error Error)) (g : loc) :
  (ctor_default g ;; try_ok g) h
  = Returns (traits.ok (traits.initiate : Error))
      (<[g := {| value := traits.initiate; disposition := Defaulted |}]> h).
Proof.
  unfold ctor_default, emplace, try_ok, bind, get_value.
  by rewrite lookup_insert_eq.
Qed.

(** C7: with the primary template at [bool], [ok(initiate())] is
    [!!bool{}], which is [false], and a default-constructed
    [unique_error<bool>] answers [try_ok()] with [false]. *)
Theorem primary_initiate_rejected :
  @traits.ok bool (error_traits_primary bool)
    (@traits.initiate bool (error_traits_primary bool)) = false
  /\ (@ctor_default bool (error_traits_primary bool) ge
      ;; @try_ok bool (error_traits_primary bool) ge) ∅
     = Returns false {[ ge := {| value := false; disposition := Defaulted |} ]}.
Proof. split; reflexivity. Qed.

(** ** The theorems at concrete stores of [unique_error_condition] *)

Lemma reset_guard_witness :
  store_initiated !! ge = Some {| value := invalid_argument; disposition := Initiated |}
  /\ ((failed (reset_raw ge not_enough_memory store_initiated) = true
       <-> Initiated = Unchecked)
      /\ (Initiated <> Unchecked ->
          reset_raw ge not_enough_memory store_initiated
          = Returns ge
              (<[ge := {| value := not_enough_memory; disposition := Unchecked |}]>
                 store_initiated))
      /\ (failed (reset ge store_initiated) = true <-> Initiated = Unchecked)
      /\ (Initiated <> Unchecked ->
          reset ge store_initiated
          = Returns ge
              (<[ge := {| value := traits.initiate; disposition := Defaulted |}]>
                 store_initiated))).
Proof.
  split; [reflexivity|].
  apply (reset_guard store_initiated ge
           {| value := invalid_argument; disposition := Initiated |}
           not_enough_memory).
  reflexivity.
Defined.

Lemma dtor_is_reset_witness :
  store_unchecked !! ge = Some {| value := invalid_argument; disposition := Unchecked |}
  /\ (failed (dtor ge store_unchecked) = failed (reset ge store_unchecked)
      /\ (failed (dtor ge store_unchecked) = true <-> Unchecked = Unchecked)
      /\ (Unchecked <> Unchecked ->
          dtor ge store_unchecked = Returns tt (delete ge store_unchecked))
      /\ (Unchecked = Initiated \/ Unchecked = Defaulted
          \/ Unchecked = Released \/ Unchecked = Checked ->
          failed (dtor ge store_unchecked) = false)).
Proof.
  split; [reflexivity|].
  apply (dtor_is_reset store_unchecked ge
           {| value := invalid_argument; disposition := Unchecked |}).
  reflexivity.
Defined.

Lemma release_always_witness :
  store_unchecked !! ge = Some {| value := invalid_argument; disposition := Unchecked |}
  /\ (let h' :=
        <[ge := {| value := traits.initiate; disposition := Defaulted |}]>
          store_unchecked in
      release ge store_unchecked = Returns invalid_argument h'
      /\ dtor ge h' = Returns tt (delete ge store_unchecked)
      /\ failed (reset ge h') = false
      /\ failed (reset_raw ge not_enough_memory h') = false).
Proof.
  split; [reflexivity|].
  apply (release_always store_unchecked ge
           {| value := invalid_argument; disposition := Unchecked |}
           not_enough_memory).
  reflexivity.
Defined.

Lemma ok_marks_checked_witness :
  store_unchecked !! ge = Some {| value := invalid_argument; disposition := Unchecked |}
  /\ (let h' :=
        <[ge := {| value := invalid_argument; disposition := Checked |}]>
          store_unchecked in
      ok ge store_unchecked = Returns (traits.ok invalid_argument) h'
      /\ operator_bool ge store_unchecked
         = Returns (negb (traits.ok invalid_argument)) h'
      /\ (operator_bool ge ;; dtor ge) store_unchecked
         = Returns tt (delete ge store_unchecked)).
Proof.
  split; [reflexivity|].
  apply (ok_marks_checked store_unchecked ge
           {| value := invalid_argument; disposition := Unchecked |}).
  reflexivity.
Defined.

Lemma refused_reset_keeps_state_witness :
  store_unchecked !! ge = Some {| value := invalid_argument; disposition := Unchecked |}
  /\ Unchecked = Unchecked
  /\ (reset_raw ge not_enough_memory store_unchecked
      = FailFast "error was not checked" store_unchecked
      /\ reset ge store_unchecked
         = FailFast "error was not checked" store_unchecked).
Proof.
  split; [reflexivity|]. split; [reflexivity|].
  apply (refused_reset_keeps_state store_unchecked ge
           {| value := invalid_argument; disposition := Unchecked |}
           not_enough_memory); reflexivity.
Defined.

Lemma move_transfers_ownership_witness :
  store_pair !! ge2 = Some {| value := not_enough_memory; disposition := Checked |}
  /\ ge2 <> ge
  /\ (let h' :=
        <[ge := {| value := not_enough_memory; disposition := Unchecked |}]>
          (<[ge2 := {| value := traits.initiate; disposition := Defaulted |}]>
             store_pair) in
      ctor_move ge ge2 store_pair = Returns tt h'
      /\ (is_Some (store_pair !! ge) ->
          operator_assign_move ge ge2 store_pair = Returns ge h')
      /\ h' !! ge = Some {| value := not_enough_memory; disposition := Unchecked |}
      /\ h' !! ge2 = Some {| value := traits.initiate; disposition := Defaulted |}
      /\ failed (dtor ge2 h') = false).
Proof.
  split; [reflexivity|]. split; [unfold ge, ge2; lia|].
  apply (move_transfers_ownership store_pair ge2 ge
           {| value := not_enough_memory; disposition := Checked |});
    [reflexivity | unfold ge, ge2; lia].
Defined.

Lemma assignment_skips_guard_witness :
  store_pair !! ge = Some {| value := invalid_argument; disposition := Unchecked |}
  /\ Unchecked = Unchecked
  /\ store_pair !! ge2 = Some {| value := not_enough_memory; disposition := Checked |}
  /\ (operator_assign_copy ge ge2 store_pair
      = Returns ge
          (<[ge := {| value := not_enough_memory; disposition := Unchecked |}]>
             store_pair)
      /\ (exists h',
             operator_assign_move ge ge2 store_pair = Returns ge h'
             /\ h' !! ge
                = Some {| value := not_enough_memory; disposition := Unchecked |})
      /\ failed (reset ge store_pair) = true
      /\ failed (reset_raw ge not_enough_memory store_pair) = true).
Proof.
  split; [reflexivity|]. split; [reflexivity|]. split; [reflexivity|].
  apply (assignment_skips_guard store_pair ge ge2
           {| value := invalid_argument; disposition := Unchecked |}
           {| value := not_enough_memory; disposition := Checked |});
    reflexivity.
Defined.

Section with_a_layout.
Local Existing Instance a_layout.


End with_a_layout.

(** ** The repository's tests pass in the model *)

Example error_ge_basic_test_passes :
  error_ge_basic_test ∅ = Returns true ∅.
Proof. reflexivity. Qed.

Example error_ge_missing_ok_test_passes :
  error_ge_missing_ok_test ∅ = Returns true ∅.
Proof. reflexivity. Qed.

Example error_ge_missing_fail_test_passes :
  error_ge_missing_fail_test ∅ = Returns true ∅.
Proof. reflexivity. Qed.

Example error_ge_long_test_passes :
  error_ge_long_test ∅ = Returns true ∅.
Proof. vm_compute. reflexivity. Qed.


(** * The rest of the interface

    Properties of the constructors, [swap], [get], [try_ok], of single
    calls in general, and of [Create1] from the tests. *)

(** ** Proof steps *)

(** Unfold the member functions down to lookups in the store, and
    resolve the lookups of objects known to be live. *)
Ltac unfold_members :=
  unfold run, void, swap_free, swap, operator_assign_move, operator_assign_copy,
    ctor_move, ctor_copy, ctor_raw, ctor_default, dtor, operator_bool, ok,
    try_ok, get, release, reset, reset_raw, fail_fast_assert, emplace, dispose,
    set_disposition, set_value, get_disposition, get_value, bind, ret.

Ltac lookups :=
  repeat first
    [ rewrite lookup_insert_eq
    | rewrite lookup_insert_ne by congruence
    | rewrite lookup_delete_eq
    | rewrite lookup_delete_ne by congruence
    | rewrite insert_insert_eq
    | rewrite delete_insert_eq
    | match goal with
      | H : ?h !! ?g = _ |- context [?h !! ?g] => rewrite H
      end
    | match goal with
      | |- context [neb ?d Unchecked] =>
          let b := eval vm_compute in (neb d Unchecked) in
          lazymatch b with
          | true => change (neb d Unchecked) with true
          | false => change (neb d Unchecked) with false
          end
      end
    | match goal with
      | |- context [if ?c then _ else _] =>
          let b := eval vm_compute in c in
          lazymatch b with
          | true => progress change c with true
          | false => progress change c with false
          end
      end
    | progress cbv beta iota
    | progress cbn [value disposition neb bool_decide negb] ].

(** Case analysis on whether the objects a call names are live, on the
    assertion's condition and on whether two addresses are the same. *)
Ltac case_lookups h :=
  repeat match goal with
         | l : nat |- _ =>
             lazymatch goal with
             | H : h !! l = _ |- _ => fail
             | _ => destruct (h !! l) as [[? ?]|] eqn:?
             end
         end.

Ltac case_guards :=
  repeat match goal with
         | |- context [neb ?d Unchecked] =>
             let Hn := fresh "Hn" in
             destruct (neb d Unchecked) eqn:Hn;
             [apply neb_not_Unchecked in Hn | apply neb_Unchecked in Hn];
             try discriminate Hn
         end.

Ltac case_alias :=
  try match goal with
      | a : nat, b : nat |- _ => destruct (decide (a = b)) as [<- | ?]
      end.

(** Lookups in a store written as inserts and deletes, by cases on the
    addresses. *)
Ltac map_lookups :=
  repeat first [rewrite lookup_insert | rewrite lookup_delete | case_decide].

(** Two results with the same value and stores that agree at every
    address. *)
Ltac same_store :=
  f_equal; apply map_eq; intros ?; map_lookups; subst; congruence.

(** ** Single calls *)

Section call_props.
Context {Error : Type} `{!error_traits Error}.

Local Abbreviation heap := (gmap loc (unique_error Error)).

Implicit Types (h : heap) (a b g t : loc) (u : unique_error Error).
Implicit Types (raw e : Error) (d : Disposition) (c : call Error).

(** X1: a call takes the fatal path exactly when it is [reset()],
    [reset(raw)] or the destructor on a live [Unchecked] object; the
    message is then "error was not checked" and the store at the failure
    is the store of the call. No constructor, assignment, [swap],
    [release], [ok], [get], [try_ok] or conversion to [bool] ever fails. *)
Theorem fatal_path_is_atomic c h msg h' :
  run c h = FailFast msg h'
  <-> (exists g u,
          guarded c = Some g /\ h !! g = Some u /\ disposition u = Unchecked
          /\ h' = h /\ msg = "error was not checked"%string).
Proof.
  destruct c; cbn [run guarded];
    case_alias; case_lookups h; unfold_members; lookups; case_guards;
    lookups;
    (split;
     [ intros Heq; try discriminate Heq; injection Heq as <- <-; eauto 10
     | intros (g' & u' & Hg & Hl & Hd & -> & ->); simplify_eq; cbn in *;
       congruence ]).
Qed.

(** X2: if every object of the store is [Initiated], [Defaulted],
    [Checked] or [Unchecked], so is every object after any call that
    returns: [Released] is never left behind by [release()], and
    [Invalid] and [End] are never written. *)
Theorem settled_is_invariant c h h' :
  (forall g u, h !! g = Some u -> settled (disposition u) = true) ->
  run c h = Returns tt h' ->
  forall g u, h' !! g = Some u -> settled (disposition u) = true.
Proof.
  intros Hall Hrun.
  destruct c; cbn [run] in Hrun; revert Hrun;
    case_alias; case_lookups h; unfold_members; lookups; case_guards; lookups;
    intros [= <-]; try discriminate; intros g u;
    map_lookups;
    intros Hu; simplify_eq; cbn;
    try reflexivity;
    try (match goal with
         | H : h !! _ = Some _ |- _ => exact (Hall _ _ H)
         end).
Qed.

(** X3: a call that returns leaves every object it does not name as it
    was, present or absent. *)
Theorem calls_are_local c h h' g :
  run c h = Returns tt h' ->
  g ∉ footprint c ->
  h' !! g = h !! g.
Proof.
  intros Hrun. revert g.
  destruct c; cbn [run footprint] in *; revert Hrun;
    case_alias; case_lookups h; unfold_members; lookups; case_guards; lookups;
    intros [= <-]; try discriminate; intros g Hg;
    map_lookups; subst; try done; set_solver.
Qed.

(** X4: an [Unchecked] object that is still there after a call is
    still [Unchecked], unless the call is [ok()], the conversion to
    [bool] or [release()] on it, a move from it, a swap with it, or a
    constructor run on its storage. Reading it with [get] or [try_ok],
    copying it, and assigning to it never end the obligation. *)
Theorem unchecked_is_sticky c h h' g u u' :
  h !! g = Some u ->
  disposition u = Unchecked ->
  run c h = Returns tt h' ->
  g ∉ discharging c ->
  h' !! g = Some u' ->
  disposition u' = Unchecked.
Proof.
  intros Hg Hd Hrun. revert g u u' Hg Hd.
  destruct c; cbn [run discharging] in *; revert Hrun;
    case_alias; case_lookups h; unfold_members; lookups; case_guards; lookups;
    intros [= <-]; try discriminate; intros g u u' Hg Hd Hnot;
    map_lookups; subst; intros Hu; simplify_eq; cbn in *;
    try done; try congruence; set_solver.
Qed.

(** ** [swap], the constructors and the reads *)

(** X5: [swap] on two live objects, the same one or not, exchanges
    value and disposition together and never takes the fatal path, not
    even on [Unchecked] objects; swapping twice gives the store back. *)
Theorem swap_exchanges h a b ua ub :
  h !! a = Some ua ->
  h !! b = Some ub ->
  swap_free a b h = Returns tt (<[b := ua]> (<[a := ub]> h))
  /\ (swap_free a b ;; swap_free a b) h = Returns tt h.
Proof.
  intros Ha Hb. destruct ua, ub. case_alias; simplify_eq.
  - unfold_members. lookups. split; same_store.
  - unfold_members. lookups. split; same_store.
Qed.

(** X6: [swap(a, b)] and [swap(b, a)] do the same, on every store. *)
Theorem swap_is_symmetric h a b :
  swap_free a b h = swap_free b a h.
Proof.
  case_alias; [done|].
  case_lookups h; unfold_members; lookups; try done. same_store.
Qed.

(** X7: copy construction leaves its source as it was and makes the
    copy [Unchecked]: checking the source does not make the copy safe to
    destroy, checking the copy does. *)
Theorem copy_needs_its_own_check h a b u :
  h !! a = Some u ->
  a <> b ->
  ctor_copy b a h
  = Returns tt (<[b := {| value := value u; disposition := Unchecked |}]> h)
  /\ failed ((ctor_copy b a ;; ok a ;; dtor b) h) = true
  /\ (ctor_copy b a ;; ok b ;; dtor b) h = Returns tt (delete b h).
Proof.
  intros Ha Hab. unfold_members. lookups.
  repeat split; try done; same_store.
Qed.

(** X8: [get()] and [try_ok()] return the value and [traits::ok] of it
    and leave the store alone; on an [Unchecked] object they do not
    stand for a check, the destructor or a [reset] after them still
    fails. *)
Theorem reads_do_not_check h g u :
  h !! g = Some u ->
  get g h = Returns (value u) h
  /\ try_ok g h = Returns (traits.ok (value u)) h
  /\ (disposition u = Unchecked ->
      failed ((get g ;; try_ok g ;; dtor g) h) = true
      /\ failed ((get g ;; try_ok g ;; reset_raw g (value u)) h) = true).
Proof.
  intros Hg. unfold_members. lookups. repeat split; case_guards; done.
Qed.

(** X9: a guarded value just constructed, by default or from a raw
    error, can be destroyed or overwritten at once without any check:
    the raw error given to the constructor is dropped silently. *)
Theorem fresh_guard_is_droppable h g e raw :
  (ctor_raw g e ;; dtor g) h = Returns tt (delete g h)
  /\ (ctor_default g ;; dtor g) h = Returns tt (delete g h)
  /\ (ctor_raw g e ;; reset_raw g raw) h
     = Returns g (<[g := {| value := raw; disposition := Unchecked |}]> h)
  /\ (ctor_default g ;; reset_raw g raw) h
     = Returns g (<[g := {| value := raw; disposition := Unchecked |}]> h).
Proof.
  unfold_members. lookups. repeat split; try done; same_store.
Qed.

(** X10: what [reset(raw)] stored is what the reads give back: [get()]
    and [release()] return [raw], [try_ok()] and [ok()] return
    [traits::ok(raw)]; [release()] leaves the object cleared. *)
Theorem reset_then_read h g u raw :
  h !! g = Some u ->
  disposition u <> Unchecked ->
  (reset_raw g raw ;; get g) h
  = Returns raw (<[g := {| value := raw; disposition := Unchecked |}]> h)
  /\ (reset_raw g raw ;; try_ok g) h
     = Returns (traits.ok raw)
         (<[g := {| value := raw; disposition := Unchecked |}]> h)
  /\ (reset_raw g raw ;; ok g) h
     = Returns (traits.ok raw)
         (<[g := {| value := raw; disposition := Checked |}]> h)
  /\ (reset_raw g raw ;; release g) h
     = Returns raw
         (<[g := {| value := traits.initiate; disposition := Defaulted |}]> h).
Proof.
  intros Hg Hd. apply neb_not_Unchecked in Hd.
  unfold_members. lookups. rewrite Hd. lookups.
  repeat split; try done; same_store.
Qed.

(** X11: moving [a] into a temporary, the temporary into [b], and
    destroying the temporary is the same as moving [a] into [b]: a move
    that the compiler does not elide changes nothing. *)
Theorem move_through_temporary h a b t u :
  h !! a = Some u ->
  h !! t = None ->
  t <> b ->
  (ctor_move t a ;; ctor_move b t ;; dtor t) h = ctor_move b a h.
Proof.
  intros Ha Ht Htb. assert (t <> a) by congruence.
  unfold_members. lookups. same_store.
Qed.

End call_props.

(** ** The two specialisations and [Create1] *)

(** X13: for [unique_error_condition] and [unique_error_code] the
    conversion to [bool] is true exactly when the wrapped value is not
    0, whatever its category, and marks the object [Checked]. *)
Theorem std_guard_truthiness
    (hc : gmap loc (unique_error error_condition))
    (hk : gmap loc (unique_error error_code)) (g : loc) uc uk :
  hc !! g = Some uc ->
  hk !! g = Some uk ->
  operator_bool g hc
  = Returns (negb (cond_value (value uc) =? 0))
      (<[g := {| value := value uc; disposition := Checked |}]> hc)
  /\ operator_bool g hk
     = Returns (negb (code_value (value uk) =? 0))
         (<[g := {| value := value uk; disposition := Checked |}]> hk).
Proof.
  intros Hc Hk. unfold_members. lookups.
  split; f_equal; apply negb_involutive.
Qed.

Lemma ge_apart : ge <> ge2.
Proof. unfold ge, ge2. lia. Qed.

(** Fresh storage is storage where no object lives. *)
Lemma new_storage_run {Error : Type} (h : gmap loc (unique_error Error)) :
  exists t, h !! t = None /\ new_storage h = Returns t h.
Proof.
  exists (fresh (dom h)). split; [|reflexivity].
  apply not_elem_of_dom, is_fresh.
Qed.

(** Take the storage of the next new object, and what is known of it. *)
Ltac alloc t :=
  match goal with
  | |- context [bind new_storage ?k ?h] =>
      let Ht := fresh "H" t in
      let Hn := fresh "Hn" in
      destruct (new_storage_run h) as (t & Ht & Hn);
      rewrite (bind_returns new_storage k h t h Hn); clear Hn;
      repeat match type of Ht with
             | <[_ := _]> _ !! _ = None =>
                 let Hne := fresh "Hne" in
                 apply lookup_insert_None in Ht as [Ht Hne]
             end
  end.

(** [this = call();] on a live [this]: whatever the call builds, [this]
    ends with its value, [Unchecked], and the temporary is gone. *)
Lemma assign_call_run (h : gmap loc (unique_error error_condition))
    this u call v d :
  h !! this = Some u ->
  (forall t h0,
      call t h0 = Returns tt (<[t := {| value := v; disposition := d |}]> h0)) ->
  assign_call this call h
  = Returns tt (<[this := {| value := v; disposition := Unchecked |}]> h).
Proof.
  intros Hthis Hcall. unfold assign_call. alloc t.
  assert (t <> this) by congruence.
  unfold bind at 1. rewrite Hcall.
  unfold_members. lookups. same_store.
Qed.

Lemma check_unique_ptr_run {T} (p : unique_ptr T) t
    (h : gmap loc (unique_error error_condition)) :
  check_unique_ptr p t h
  = Returns tt
      (<[t := {| value := match p with
                          | Some _ => traits.initiate
                          | None => not_enough_memory
                          end;
                 disposition := match p with
                                | Some _ => Defaulted
                                | None => Initiated
                                end |}]> h).
Proof. by destruct p. Qed.

(** X14: [Create1] never takes the fatal path, whatever the two
    allocations give and whatever the store. It returns, in storage that
    was free, an [Unchecked] guard that holds [not_enough_memory] when
    an allocation failed and the success value otherwise; when the first
    allocation fails the second pointer is null. Its local and its
    temporaries are gone, and every other object is as it was. *)
Theorem Create1_returns new_foo new_bar
    (h : gmap loc (unique_error error_condition)) :
  exists res,
    h !! res = None
    /\ Create1 new_foo new_bar h
       = Returns
           (res, new_foo, match new_foo with Some _ => new_bar | None => None end)
           (<[res := {| value := match new_foo, new_bar with
                                 | Some _, Some _ => traits.initiate
                                 | _, _ => not_enough_memory
                                 end;
                        disposition := Unchecked |}]> h).
Proof.
  unfold Create1. alloc g.
  unfold bind at 1, ctor_default at 1, emplace at 1.
  erewrite bind_returns
    by (eapply assign_call_run;
        [apply lookup_insert_eq | intros; apply check_unique_ptr_run]).
  erewrite bind_returns
    by (unfold operator_bool; erewrite bind_returns
          by (apply ok_run, lookup_insert_eq); reflexivity).
  destruct new_foo as [f|]; cbn [value negb traits.ok].
  - change (negb (traits.ok (traits.initiate : error_condition))) with false.
    cbv iota.
    erewrite bind_returns
      by (eapply assign_call_run;
          [apply lookup_insert_eq | intros; apply check_unique_ptr_run]).
    erewrite bind_returns
      by (unfold operator_bool; erewrite bind_returns
            by (apply ok_run, lookup_insert_eq); reflexivity).
    destruct new_bar as [b|]; cbn [value];
      [ change (negb (traits.ok (traits.initiate : error_condition))) with false
      | change (negb (traits.ok not_enough_memory)) with true ];
      cbv iota; alloc res; exists res; (split; [done|]);
      unfold_members; lookups; same_store.
  - change (negb (traits.ok not_enough_memory)) with true. cbv iota.
    alloc res. exists res. split; [done|].
    unfold_members. lookups. same_store.
Qed.

(** X15: [create1_test] never takes the fatal path, on any store: its
    test of the returned guard checks it before the tuple is destroyed.
    Its checks pass exactly when both allocations succeeded, and it
    leaves the store as it found it. *)
Theorem create1_test_outcome new_foo new_bar
    (h : gmap loc (unique_error error_condition)) :
  create1_test new_foo new_bar h
  = Returns (bool_decide (is_Some new_foo) && bool_decide (is_Some new_bar)) h.
Proof.
  destruct (Create1_returns new_foo new_bar h) as (res & Hres & Hrun).
  unfold create1_test. rewrite (bind_returns _ _ _ _ _ Hrun). cbv beta iota.
  destruct new_foo, new_bar; unfold_members; lookups; f_equal;
    first [ apply map_eq; intros ?; map_lookups; subst; congruence
          | vm_compute; reflexivity ].
Qed.

(** ** These theorems at concrete stores *)

Lemma settled_is_invariant_witness :
  (forall g u, store_unchecked !! g = Some u -> settled (disposition u) = true)
  /\ run (call_ok ge) store_unchecked
     = Returns tt
         (<[ge := {| value := invalid_argument; disposition := Checked |}]>
            store_unchecked)
  /\ (forall g u,
         (<[ge := {| value := invalid_argument; disposition := Checked |}]>
            store_unchecked) !! g = Some u ->
         settled (disposition u) = true).
Proof.
  assert (H1 : forall g u, store_unchecked !! g = Some u ->
                           settled (disposition u) = true).
  { intros g u Hu. unfold store_unchecked in Hu.
    apply lookup_singleton_Some in Hu as [_ <-]. reflexivity. }
  split; [exact H1|]. split; [reflexivity|].
  apply (settled_is_invariant (call_ok ge) store_unchecked); [exact H1 | reflexivity].
Defined.

Lemma calls_are_local_witness :
  run (call_reset_raw ge2 invalid_argument) store_pair
  = Returns tt
      (<[ge2 := {| value := invalid_argument; disposition := Unchecked |}]>
         store_pair)
  /\ (ge ∉ footprint (call_reset_raw ge2 invalid_argument))
  /\ (<[ge2 := {| value := invalid_argument; disposition := Unchecked |}]>
        store_pair) !! ge
     = store_pair !! ge.
Proof.
  assert (H2 : ge ∉ footprint (call_reset_raw ge2 invalid_argument)).
  { intros H%list_elem_of_singleton. discriminate H. }
  split; [reflexivity|]. split; [exact H2|].
  apply (calls_are_local (call_reset_raw ge2 invalid_argument) store_pair);
    [reflexivity | exact H2].
Defined.

Lemma unchecked_is_sticky_witness :
  store_pair !! ge = Some {| value := invalid_argument; disposition := Unchecked |}
  /\ Unchecked = Unchecked
  /\ run (call_assign_copy ge ge2) store_pair
     = Returns tt
         (<[ge := {| value := not_enough_memory; disposition := Unchecked |}]>
            store_pair)
  /\ (ge ∉ discharging (call_assign_copy (Error := error_condition) ge ge2))
  /\ (<[ge := {| value := not_enough_memory; disposition := Unchecked |}]>
        store_pair) !! ge
     = Some {| value := not_enough_memory; disposition := Unchecked |}
  /\ disposition {| value := not_enough_memory; disposition := Unchecked |}
     = Unchecked.
Proof.
  assert (H4 : ge ∉ discharging (call_assign_copy (Error := error_condition) ge ge2))
    by apply not_elem_of_nil.
  split; [reflexivity|]. split; [reflexivity|]. split; [reflexivity|].
  split; [exact H4|]. split; [reflexivity|].
  apply (unchecked_is_sticky (call_assign_copy ge ge2) store_pair
           (<[ge := {| value := not_enough_memory; disposition := Unchecked |}]>
              store_pair)
           ge {| value := invalid_argument; disposition := Unchecked |});
    [reflexivity | reflexivity | reflexivity | exact H4 | reflexivity].
Defined.

Lemma swap_exchanges_witness :
  store_pair !! ge = Some {| value := invalid_argument; disposition := Unchecked |}
  /\ store_pair !! ge2 = Some {| value := not_enough_memory; disposition := Checked |}
  /\ (swap_free ge ge2 store_pair
      = Returns tt
          (<[ge2 := {| value := invalid_argument; disposition := Unchecked |}]>
             (<[ge := {| value := not_enough_memory; disposition := Checked |}]>
                store_pair))
      /\ (swap_free ge ge2 ;; swap_free ge ge2) store_pair = Returns tt store_pair).
Proof.
  split; [reflexivity|]. split; [reflexivity|].
  apply (swap_exchanges store_pair ge ge2); reflexivity.
Defined.

Lemma copy_needs_its_own_check_witness :
  store_unchecked !! ge = Some {| value := invalid_argument; disposition := Unchecked |}
  /\ ge <> ge2
  /\ (ctor_copy ge2 ge store_unchecked
      = Returns tt
          (<[ge2 := {| value := invalid_argument; disposition := Unchecked |}]>
             store_unchecked)
      /\ failed ((ctor_copy ge2 ge ;; ok ge ;; dtor ge2) store_unchecked) = true
      /\ (ctor_copy ge2 ge ;; ok ge2 ;; dtor ge2) store_unchecked
         = Returns tt (delete ge2 store_unchecked)).
Proof.
  split; [reflexivity|]. split; [exact ge_apart|].
  apply (copy_needs_its_own_check store_unchecked ge ge2
           {| value := invalid_argument; disposition := Unchecked |});
    [reflexivity | exact ge_apart].
Defined.

Lemma reads_do_not_check_witness :
  store_unchecked !! ge = Some {| value := invalid_argument; disposition := Unchecked |}
  /\ (get ge store_unchecked = Returns invalid_argument store_unchecked
      /\ try_ok ge store_unchecked
         = Returns (traits.ok invalid_argument) store_unchecked
      /\ (Unchecked = Unchecked ->
          failed ((get ge ;; try_ok ge ;; dtor ge) store_unchecked) = true
          /\ failed ((get ge ;; try_ok ge ;; reset_raw ge invalid_argument)
                       store_unchecked) = true)).
Proof.
  split; [reflexivity|].
  apply (reads_do_not_check store_unchecked ge
           {| value := invalid_argument; disposition := Unchecked |}).
  reflexivity.
Defined.

Lemma reset_then_read_witness :
  store_initiated !! ge = Some {| value := invalid_argument; disposition := Initiated |}
  /\ Initiated <> Unchecked
  /\ ((reset_raw ge not_enough_memory ;; get ge) store_initiated
      = Returns not_enough_memory
          (<[ge := {| value := not_enough_memory; disposition := Unchecked |}]>
             store_initiated)
      /\ (reset_raw ge not_enough_memory ;; try_ok ge) store_initiated
         = Returns (traits.ok not_enough_memory)
             (<[ge := {| value := not_enough_memory; disposition := Unchecked |}]>
                store_initiated)
      /\ (reset_raw ge not_enough_memory ;; ok ge) store_initiated
         = Returns (traits.ok not_enough_memory)
             (<[ge := {| value := not_enough_memory; disposition := Checked |}]>
                store_initiated)
      /\ (reset_raw ge not_enough_memory ;; release ge) store_initiated
         = Returns not_enough_memory
             (<[ge := {| value := traits.initiate; disposition := Defaulted |}]>
                store_initiated)).
Proof.
  split; [reflexivity|]. split; [discriminate|].
  apply (reset_then_read store_initiated ge
           {| value := invalid_argument; disposition := Initiated |}
           not_enough_memory);
    [reflexivity | discriminate].
Defined.

Lemma move_through_temporary_witness :
  store_unchecked !! ge = Some {| value := invalid_argument; disposition := Unchecked |}
  /\ store_unchecked !! ge2 = None
  /\ ge2 <> 2%nat
  /\ (ctor_move ge2 ge ;; ctor_move 2%nat ge2 ;; dtor ge2) store_unchecked
     = ctor_move 2%nat ge store_unchecked.
Proof.
  split; [reflexivity|]. split; [reflexivity|].
  split; [unfold ge2; lia|].
  apply (move_through_temporary store_unchecked ge 2%nat ge2
           {| value := invalid_argument; disposition := Unchecked |});
    [reflexivity | reflexivity | unfold ge2; lia].
Defined.

Lemma self_move_assign_witness :
  store_unchecked !! ge = Some {| value := invalid_argument; disposition := Unchecked |}
  /\ operator_assign_move ge ge store_unchecked
     = Returns ge
         (<[ge := {| value := invalid_argument; disposition := Unchecked |}]>
            store_unchecked).
Proof.
  split; [reflexivity|].
  apply (self_move_assign store_unchecked ge
           {| value := invalid_argument; disposition := Unchecked |}).
  reflexivity.
Defined.

Lemma std_guard_truthiness_witness :
  store_unchecked !! ge = Some {| value := invalid_argument; disposition := Unchecked |}
  /\ ({[ ge := {| value := {| code_value := 5; code_category := system_category |};
                  disposition := Initiated |} ]}
        : gmap loc (unique_error error_code)) !! ge
     = Some {| value := {| code_value := 5; code_category := system_category |};
               disposition := Initiated |}
  /\ (operator_bool ge store_unchecked
      = Returns (negb (22 =? 0))
          (<[ge := {| value := invalid_argument; disposition := Checked |}]>
             store_unchecked)
      /\ operator_bool ge
           ({[ ge := {| value := {| code_value := 5; code_category := system_category |};
                        disposition := Initiated |} ]}
              : gmap loc (unique_error error_code))
         = Returns (negb (5 =? 0))
             (<[ge := {| value := {| code_value := 5; code_category := system_category |};
                         disposition := Checked |}]>
                {[ ge := {| value := {| code_value := 5; code_category := system_category |};
                            disposition := Initiated |} ]})).
Proof.
  split; [reflexivity|]. split; [reflexivity|].
  apply (std_guard_truthiness store_unchecked
           {[ ge := {| value := {| code_value := 5; code_category := system_category |};
                       disposition := Initiated |} ]}
           ge
           {| value := invalid_argument; disposition := Unchecked |}
           {| value := {| code_value := 5; code_category := system_category |};
              disposition := Initiated |});
    reflexivity.
Defined.
